(** * RAG-001/index.py: a retrieval-augmented-generation script

    The script is sequential glue around an external library: it loads
    documents, shapes their metadata in place, runs an ingestion pipeline,
    builds a vector index and issues one query.  This development embeds
    the script's own code: the shaping loop over the (mutable) document
    objects, the configuration values it passes to the library, and its
    control flow with the two [try] blocks and the unguarded environment
    lookups.  Calls into the library are calls to an explicit record of
    external operations whose results the script cannot influence. *)

From Stdlib Require Import QArith.
From stdpp Require Import base option list strings gmap fin_maps sorting.

Open Scope string_scope.

(** ** Documents *)

(** Modelled from the spec: the [Document] type of the external library is
    not under src/; section 3 of the spec gives its fields: raw text, a
    mapping of metadata keys to values, two template strings, and the
    metadata keys excluded from each rendering mode.  The two exclusion
    collections are Python lists (the script calls [append] on one). *)
Record Document := mkDocument {
  text : string;
  metadata : gmap string string;
  text_template : string;
  metadata_template : string;
  excluded_embed_metadata_keys : list string;
  excluded_llm_metadata_keys : list string
}.

(** The two rendering modes named in the script ([MetadataMode.LLM] and
    [MetadataMode.EMBED]). *)
Inductive MetadataMode := LLM | EMBED.

(** The keys excluded from a rendering in the given mode. *)
Definition excluded_keys (mode : MetadataMode) (doc : Document) : list string :=
  match mode with
  | LLM => excluded_llm_metadata_keys doc
  | EMBED => excluded_embed_metadata_keys doc
  end.

(** Attribute assignment [doc.text_template = t]. *)
Definition set_text_template (t : string) (doc : Document) : Document :=
  mkDocument (text doc) (metadata doc) t (metadata_template doc)
             (excluded_embed_metadata_keys doc) (excluded_llm_metadata_keys doc).

(** [doc.excluded_embed_metadata_keys.append(k)]. *)
Definition append_excluded_embed (k : string) (doc : Document) : Document :=
  mkDocument (text doc) (metadata doc) (text_template doc) (metadata_template doc)
             (excluded_embed_metadata_keys doc ++ [k]) (excluded_llm_metadata_keys doc).

(** Python's [k in l] on a list of strings. *)
Definition py_in (k : string) (l : list string) : bool := bool_decide (k ∈ l).

(** The escape [\n] of a Python string literal. *)
Definition newline : string := String (Ascii.ascii_of_nat 10) EmptyString.

(** Line 79: the template string assigned to every document. *)
Definition TEXT_TEMPLATE : string :=
  "Metadata:" ++ newline ++ "{metadata_str}" ++ newline ++ "-----" ++ newline
  ++ "Content:" ++ newline ++ "{content}".

(** ** The metadata-shaping loop (lines 77-83) *)

(** The body of the loop, on the state of one document object. *)
Definition shape_document (doc : Document) : Document :=
  let doc := set_text_template TEXT_TEMPLATE doc in
  if negb (py_in "page_label" (excluded_embed_metadata_keys doc))
  then append_excluded_embed "page_label" doc
  else doc.

(** Documents are mutable objects: the store maps an object identity to the
    object's current state, and the Python list [docs] holds identities, so
    the same object may occur in it more than once. *)
Abbreviation store := (gmap nat Document).

(** One iteration: the object bound to the loop variable is updated in
    place.  An identity without an object cannot occur in a Python list;
    the step leaves the store alone there. *)
Definition shape_step (h : store) (r : nat) : store :=
  match h !! r with
  | Some doc => <[r := shape_document doc]> h
  | None => h
  end.

(** [for doc in docs: ...] *)
Definition shape_documents (docs : list nat) (h : store) : store :=
  foldl shape_step h docs.

(** The loader returns fresh objects: [docs] names each of them once. *)
Definition allocate (loaded : list Document) : store := map_seq 0 loaded.

Definition identities (loaded : list Document) : list nat := seq 0 (length loaded).

(** The states of the listed objects, in list order. *)
Definition contents (h : store) (docs : list nat) : list Document :=
  omap (λ r, h !! r) docs.

(** ** Configuration objects built by the script *)

(** Lines 96-99 and 175-178: a client for the hosted language model. *)
Record Groq := mkGroq { model : string; api_key : string }.

(** Lines 110-114. *)
Record SentenceSplitter := mkSentenceSplitter {
  separator : string;
  chunk_size : nat;
  chunk_overlap : nat
}.

(** Lines 116-119. *)
Record TitleExtractor := mkTitleExtractor { title_llm : Groq; title_nodes : nat }.

(** Lines 121-124. *)
Record QuestionsAnsweredExtractor := mkQuestionsAnsweredExtractor {
  questions_llm : Groq;
  questions : nat
}.

Inductive Transformation :=
| Split (s : SentenceSplitter)
| ExtractTitle (t : TitleExtractor)
| ExtractQuestions (q : QuestionsAnsweredExtractor).

(** Lines 130-136. *)
Record IngestionPipeline := mkIngestionPipeline {
  transformations : list Transformation
}.

Definition llm_transformations (key : string) : Groq :=
  mkGroq "llama-3.1-8b-instant" key.

Definition text_splitter : SentenceSplitter := mkSentenceSplitter " " 1024 128.

Definition title_extractor (key : string) : TitleExtractor :=
  mkTitleExtractor (llm_transformations key) 5.

Definition questions_answered_extractor (key : string) : QuestionsAnsweredExtractor :=
  mkQuestionsAnsweredExtractor (llm_transformations key) 3.

Definition ingestion_pipeline (key : string) : IngestionPipeline :=
  mkIngestionPipeline
    [ Split text_splitter;
      ExtractTitle (title_extractor key);
      ExtractQuestions (questions_answered_extractor key) ].

Definition llm_querying (key : string) : Groq :=
  mkGroq "llama-3.3-70b-versatile" key.

(** Line 158. *)
Definition EMBED_MODEL_NAME : string := "BAAI/bge-small-en-v1.5".

(** Line 187. *)
Definition QUERY_TEXT : string := "What does this document talk about?".

(** ** Values produced by the library *)

(** Modelled from the spec: the chunk type of the external library
    (section 3): a text fragment derived from exactly one document, with
    that document's metadata and the extractors' additions.  [source] is
    the position of the chunk's document in the list handed to the
    pipeline. *)
Record Node := mkNode {
  node_text : string;
  node_metadata : gmap string string;
  source : nat
}.

(** Modelled from the spec: an embedding is a numeric vector (glossary);
    every finite floating-point number is a rational. *)
Abbreviation Embedding := (list Q).

(** Modelled from the spec: the index is a collection of chunks paired with
    their embedding vectors (section 3). *)
Abbreviation VectorStoreIndex := (list (Node * Embedding)).

(** Lines 180-184. *)
Record QueryEngine := mkQueryEngine {
  engine_index : VectorStoreIndex;
  engine_llm : Groq;
  similarity_top_k : nat
}.

Definition as_query_engine (index : VectorStoreIndex) (key : string) : QueryEngine :=
  mkQueryEngine index (llm_querying key) 5.

(** Modelled from the spec: a query response is the answer text with the
    chunks it was synthesized from (section 3). *)
Record Response := mkResponse {
  response_text : string;
  source_nodes : list Node
}.

(** ** Exceptions and the script's effects *)

(** The exception classes that matter to the script's two handlers.  All
    of them derive from [Exception]; asynchronous interrupts are outside
    the model. *)
Inductive ExcClass :=
| Exception
| AttributeError
| KeyError
| IndexError
| LibraryError (name : string).

(** [issubclass c handler] for the classes above. *)
Definition issubclass (c handler : ExcClass) : bool :=
  match handler, c with
  | Exception, _ => true
  | AttributeError, AttributeError => true
  | KeyError, KeyError => true
  | IndexError, IndexError => true
  | LibraryError a, LibraryError b => String.eqb a b
  | _, _ => false
  end.

(** A raised exception: its class and [str(e)]. *)
Record exn := mkExn { exc_class : ExcClass; exc_str : string }.

(** The two [try] statements of the script. *)
Inductive TryBlock := TrySslContext | TryNltkDownload.

(** What the script writes to standard output, before formatting. *)
Inductive Printed :=
| PWarning (e : exn)
| PLoaded (n : nat)
| PTransformed (n : nat)
| PNodeContent (mode : MetadataMode) (n : Node)
| PTestEmbedding (v : Embedding)
| PQueryResponse (r : Response)
| PResponseDict (r : Response).

(** The observable steps of a run, in the order they happen. *)
Inductive Event :=
| EvNestAsyncio
| EvSetDefaultHttpsContext
| EvNltkDownload (pkg : string)
| EvCaught (blk : TryBlock) (e : exn)
| EvPrint (p : Printed)
| EvLoadData (dir : string)
| EvShape (docs : list Document)
| EvLoadDotenv
| EvPipelineRun (p : IngestionPipeline) (docs : list Document)
| EvLoadEmbedModel (name : string)
| EvGetTextEmbedding (name : string) (txt : string)
| EvBuildIndex (nodes : list Node) (name : string)
| EvQuery (engine : QueryEngine) (q : string).

(** Everything outside the script: the interpreter's [ssl] module, the
    file system, the network and the library calls.  A call answers with a
    value or raises. *)
Record World := mkWorld {
  ssl_has_unverified_context : bool;
  nltk_download : string → option exn;
  load_data : string → exn + list Document;
  os_environ : gmap string string;
  load_dotenv : gmap string string → gmap string string;
  pipeline_run : IngestionPipeline → list Document → exn + list Node;
  load_embed_model : string → option exn;
  get_text_embedding : string → string → exn + Embedding;
  build_index : list Node → string → exn + VectorStoreIndex;
  query : QueryEngine → string → exn + Response
}.

(** The interpreter state the script reads and writes. *)
Record State := mkState {
  environ : gmap string string;
  trace : list Event
}.

(** A computation either returns or raises; the state survives both. *)
Definition M (A : Type) : Type := State → State * (exn + A).

Definition ret {A} (a : A) : M A := λ st, (st, inr a).

Definition raise {A} (e : exn) : M A := λ st, (st, inl e).

Definition bind {A B} (m : M A) (k : A → M B) : M B :=
  λ st, match m st with
        | (st', inr a) => k a st'
        | (st', inl e) => (st', inl e)
        end.

#[global] Instance M_ret : MRet M := @ret.
#[global] Instance M_bind : MBind M := λ A B k m, bind m k.

Definition emit (ev : Event) : M unit :=
  λ st, (mkState (environ st) (trace st ++ [ev]), inr tt).

Definition lift {A} (r : exn + A) : M A :=
  match r with inl e => raise e | inr a => ret a end.

Definition check (r : option exn) : M unit :=
  match r with Some e => raise e | None => ret tt end.

(** [try: body / except cls: handler]. *)
Definition try_except {A} (blk : TryBlock) (body : M A) (cls : ExcClass)
    (handler : exn → M A) : M A :=
  λ st, match body st with
        | (st', inl e) =>
            if issubclass (exc_class e) cls
            then bind (emit (EvCaught blk e)) (λ _, handler e) st'
            else (st', inl e)
        | r => r
        end.

Definition single_quote : Ascii.ascii := Ascii.ascii_of_nat 39.
Definition double_quote : Ascii.ascii := Ascii.ascii_of_nat 34.
Definition backslash : Ascii.ascii := Ascii.ascii_of_nat 92.

Definition hex_digit (n : nat) : Ascii.ascii :=
  match String.get n "0123456789abcdef" with
  | Some c => c
  | None => Ascii.ascii_of_nat 48
  end.

(** One character of [repr(s)] inside the quote [q]: the quote and the
    backslash are escaped, tab, newline and carriage return get their
    letter, the other control characters become [\xNN]. *)
Definition repr_char (q c : Ascii.ascii) : string :=
  let n := Ascii.nat_of_ascii c in
  if (Ascii.eqb c q || Ascii.eqb c backslash)%bool then String backslash (String c "")
  else if (n =? 9)%nat then String backslash "t"
  else if (n =? 10)%nat then String backslash "n"
  else if (n =? 13)%nat then String backslash "r"
  else if ((n <? 32)%nat || (n =? 127)%nat)%bool
       then String backslash
              ("x" ++ String (hex_digit (n / 16)) (String (hex_digit (n mod 16)) ""))
  else String c "".

Fixpoint repr_chars (q : Ascii.ascii) (s : string) : string :=
  match s with
  | EmptyString => ""
  | String c s => repr_char q c ++ repr_chars q s
  end.

Fixpoint contains_char (c : Ascii.ascii) (s : string) : bool :=
  match s with
  | EmptyString => false
  | String c' s => (Ascii.eqb c c' || contains_char c s)%bool
  end.

(** Python's [repr] of a [str]: single quotes, or double quotes when the
    text has a single quote and no double one.  Bytes above 127 are kept,
    as [repr] keeps printable non-ASCII characters. *)
Definition py_repr (s : string) : string :=
  let q := if (contains_char single_quote s && negb (contains_char double_quote s))%bool
           then double_quote else single_quote in
  String q (repr_chars q s ++ String q "").

(** [os.environ[k]]: a missing key raises [KeyError(k)], and the [str] of
    a [KeyError] is the [repr] of its key. *)
Definition environ_lookup (k : string) : M string :=
  λ st, match environ st !! k with
        | Some v => (st, inr v)
        | None => (st, inl (mkExn KeyError (py_repr k)))
        end.

Definition set_environ (env : gmap string string) : M unit :=
  λ st, (mkState env (trace st), inr tt).

Definition get_environ : M (gmap string string) := λ st, (st, inr (environ st)).

(** [l[0]]. *)
Definition first_item {A} (l : list A) : M A :=
  match l with
  | x :: _ => ret x
  | [] => raise (mkExn IndexError "list index out of range")
  end.

(** ** The script, top to bottom *)

Section Script.
Variable w : World.

(** Lines 8-13: [try ... except AttributeError: pass / else: ...]; the
    [else] branch runs outside the handler. *)
Definition fix_ssl : M unit :=
  found ← try_except TrySslContext
            (if ssl_has_unverified_context w
             then ret true
             else raise (mkExn AttributeError
                    "module 'ssl' has no attribute '_create_unverified_context'"))
            AttributeError (λ _, ret false);
  if found : bool then emit EvSetDefaultHttpsContext else ret tt.

Definition download (pkg : string) : M unit :=
  emit (EvNltkDownload pkg) ;; check (nltk_download w pkg).

(** Lines 16-21. *)
Definition download_nltk_data : M unit :=
  try_except TryNltkDownload
    (download "stopwords" ;; download "punkt" ;; download "punkt_tab")
    Exception (λ e, emit (EvPrint (PWarning e))).

(** Lines 26-28. *)
Definition load_documents : M (list Document) :=
  emit (EvLoadData "./data") ;;
  docs ← lift (load_data w "./data");
  emit (EvPrint (PLoaded (length docs))) ;;
  ret docs.

(** Lines 77-83, on the freshly loaded objects. *)
Definition shape (loaded : list Document) : M (list Document) :=
  let docs := identities loaded in
  let shaped := contents (shape_documents docs (allocate loaded)) docs in
  emit (EvShape shaped) ;; ret shaped.

(** Lines 93-99. *)
Definition read_api_key : M string :=
  emit EvLoadDotenv ;;
  env ← get_environ;
  set_environ (load_dotenv w env) ;;
  environ_lookup "GROQ_API_KEY".

(** Lines 139-152. *)
Definition ingest (key : string) (docs : list Document) : M (list Node) :=
  emit (EvPipelineRun (ingestion_pipeline key) docs) ;;
  nodes ← lift (pipeline_run w (ingestion_pipeline key) docs);
  emit (EvPrint (PTransformed (length nodes))) ;;
  n ← first_item nodes;
  emit (EvPrint (PNodeContent EMBED n)) ;;
  ret nodes.

(** Lines 158-170. *)
Definition build (nodes : list Node) : M VectorStoreIndex :=
  emit (EvLoadEmbedModel EMBED_MODEL_NAME) ;;
  check (load_embed_model w EMBED_MODEL_NAME) ;;
  emit (EvGetTextEmbedding EMBED_MODEL_NAME "This is a test embedding.") ;;
  test_embedding ← lift (get_text_embedding w EMBED_MODEL_NAME
                           "This is a test embedding.");
  emit (EvPrint (PTestEmbedding test_embedding)) ;;
  emit (EvBuildIndex nodes EMBED_MODEL_NAME) ;;
  lift (build_index w nodes EMBED_MODEL_NAME).

(** Lines 175-192. *)
Definition ask (index : VectorStoreIndex) : M unit :=
  key ← environ_lookup "GROQ_API_KEY";
  let query_engine := as_query_engine index key in
  emit (EvQuery query_engine QUERY_TEXT) ;;
  response ← lift (query w query_engine QUERY_TEXT);
  emit (EvPrint (PQueryResponse response)) ;;
  emit (EvPrint (PResponseDict response)).

(** The module body.  The steps that can end a run are the calls whose
    failure the script's own structure is about: the loader, the key
    lookups, the pipeline, [nodes[0]], the embedding model, the index and
    the query.  The imports, [nest_asyncio.apply], [load_dotenv], the
    constructors of the configuration objects, [as_query_engine] and
    [print] are taken to return. *)
Definition main : M unit :=
  emit EvNestAsyncio ;;
  fix_ssl ;;
  download_nltk_data ;;
  loaded ← load_documents;
  docs ← shape loaded;
  key ← read_api_key;
  nodes ← ingest key docs;
  index ← build nodes;
  ask index.

(** A run of the script from the process environment. *)
Definition run : State * (exn + unit) := main (mkState (os_environ w) []).
End Script.

(** ** The library's pipeline and query engine, as the spec describes them *)

(** Sequencing of calls that answer or raise. *)
Definition and_then {A B} (r : exn + A) (k : A → exn + B) : exn + B :=
  match r with inl e => inl e | inr a => k a end.

(** A call per list element, left to right, stopping at the first failure. *)
Fixpoint for_each {A B} (f : A → exn + B) (l : list A) : exn + list B :=
  match l with
  | [] => inr []
  | x :: l => and_then (f x) (λ y, and_then (for_each f l) (λ ys, inr (y :: ys)))
  end.

(** Scores are compared as rationals. *)
#[global] Instance Qle_decision (a b : Q) : Decision (Qle a b).
Proof.
  destruct (Qle_bool a b) eqn:E.
  - left. by apply Qle_bool_iff.
  - right. intros H. apply Qle_bool_iff in H. congruence.
Defined.

Section Library.
(** The parts the spec leaves open are parameters: the text-splitting
    algorithm, the hosted model's answers, the metadata keys under which
    the extractors store them, the embedding model and the similarity
    measure. *)
Variable split_text : SentenceSplitter → string → list string.
Variable ask_title : TitleExtractor → Node → exn + string.
Variable ask_questions : QuestionsAnsweredExtractor → Node → exn + string.
Variable title_key questions_key : string.
Variable embed_query : string → exn + Embedding.
Variable similarity : Embedding → Embedding → Q.
Variable synthesize : Groq → string → list Node → exn + string.

(** Modelled from the spec: the pipeline starts from the documents
    themselves, each one its own source (section 3: a chunk is derived
    from exactly one document and propagates its metadata). *)
Definition document_nodes (docs : list Document) : list Node :=
  imap (λ i doc, mkNode (text doc) (metadata doc) i) docs.

(** Modelled from the spec: transformation (a) splits every node's text
    on its own; the fragments keep the node's metadata and source. *)
Definition split_node (s : SentenceSplitter) (n : Node) : list Node :=
  (λ fragment, mkNode fragment (node_metadata n) (source n)) <$>
    split_text s (node_text n).

(** [node.metadata[k] = v]. *)
Definition add_metadata (k v : string) (n : Node) : Node :=
  mkNode (node_text n) (<[k := v]> (node_metadata n)) (source n).

(** Modelled from the spec: transformations (b) and (c) ask the hosted
    model once per chunk and add the answer to the chunk's metadata. *)
Definition transform (t : Transformation) (nodes : list Node) : exn + list Node :=
  match t with
  | Split s => inr (nodes ≫= split_node s)
  | ExtractTitle e =>
      for_each (λ n, and_then (ask_title e n)
                       (λ v, inr (add_metadata title_key v n))) nodes
  | ExtractQuestions e =>
      for_each (λ n, and_then (ask_questions e n)
                       (λ v, inr (add_metadata questions_key v n))) nodes
  end.

(** Modelled from the spec: the transformations are applied in list
    order, each to the output of the one before (section 2, stage 3). *)
Fixpoint run_transformations (ts : list Transformation) (nodes : list Node)
    : exn + list Node :=
  match ts with
  | [] => inr nodes
  | t :: ts => and_then (transform t nodes) (run_transformations ts)
  end.

(** Modelled from the spec: [run] applies the pipeline's transformations
    to the documents it is given (section 2, stage 3). *)
Definition ingestion_pipeline_run (p : IngestionPipeline) (docs : list Document)
    : exn + list Node :=
  run_transformations (transformations p) (document_nodes docs).

(** An index entry is at least as similar to the query as another. *)
Definition more_similar (qv : Embedding) (a b : Node * Embedding) : Prop :=
  Qle (similarity qv b.2) (similarity qv a.2).

#[global] Instance more_similar_dec qv a b : Decision (more_similar qv a b).
Proof. unfold more_similar. apply _. Defined.

(** Modelled from the spec: top-K retrieval returns the K stored items
    most similar to the query vector (glossary). *)
Definition retrieve (k : nat) (qv : Embedding) (index : VectorStoreIndex)
    : list (Node * Embedding) :=
  take k (merge_sort (more_similar qv) index).

(** Modelled from the spec: the query engine embeds the query, retrieves
    the top-K chunks and asks its language model to synthesize an answer
    from them (section 2, stage 5). *)
Definition engine_query (engine : QueryEngine) (q : string) : exn + Response :=
  and_then (embed_query q) (λ qv,
    let chunks := (retrieve (similarity_top_k engine) qv (engine_index engine)).*1 in
    and_then (synthesize (engine_llm engine) q chunks) (λ answer,
      inr (mkResponse answer chunks))).
End Library.

(** ** Reading a run *)

(** The events of the stages that follow the construction of
    [llm_transformations] (line 96): ingestion, embedding, indexing and the
    query, with what they print. *)
Definition later_stage (ev : Event) : bool :=
  match ev with
  | EvPipelineRun _ _ | EvLoadEmbedModel _ | EvGetTextEmbedding _ _
  | EvBuildIndex _ _ | EvQuery _ _ => true
  | EvPrint (PTransformed _) | EvPrint (PNodeContent _ _)
  | EvPrint (PTestEmbedding _) | EvPrint (PQueryResponse _)
  | EvPrint (PResponseDict _) => true
  | _ => false
  end.

(** The queries a run issued, each with the engine it went to. *)
Definition queries (tr : list Event) : list (QueryEngine * string) :=
  omap (λ ev, match ev with EvQuery engine q => Some (engine, q) | _ => None end) tr.


(** A chunk carries its document's metadata: its source is a document of
    the input list and every metadata key of that document is a key of the
    chunk. *)
Definition keeps_provenance (docs : list Document) (n : Node) : Prop :=
  ∃ doc, docs !! source n = Some doc
         ∧ dom (metadata doc) ⊆ dom (node_metadata n).

(** A chunk after both extractors: the text and source it had, with the
    two metadata entries added. *)
Definition enriched (title_key questions_key : string) (chunk n : Node) : Prop :=
  node_text n = node_text chunk ∧ source n = source chunk
  ∧ title_key ∈ dom (node_metadata n) ∧ questions_key ∈ dom (node_metadata n).


(** The calls of [ingestion_pipeline.run] in a run, with their arguments. *)
Definition pipeline_runs (tr : list Event)
    : list (IngestionPipeline * list Document) :=
  omap (λ ev, match ev with EvPipelineRun p docs => Some (p, docs) | _ => None end) tr.

(** The events of lines 158-192: embedding, indexing and the query. *)
Definition indexing_event (ev : Event) : bool :=
  match ev with
  | EvLoadEmbedModel _ | EvGetTextEmbedding _ _ | EvBuildIndex _ _ | EvQuery _ _ => true
  | _ => false
  end.

(** Whether a run replaced [ssl._create_default_https_context] (line 13). *)
Definition replaces_https_context (tr : list Event) : bool :=
  existsb (λ ev, match ev with EvSetDefaultHttpsContext => true | _ => false end) tr.

(** The answers of the world that carry a run through ingestion: the
    loader's documents, the key in the environment after [load_dotenv],
    and at least one node from the pipeline on the shaped documents. *)
Definition ingests (w : World) (loaded : list Document) (key : string)
    (nodes : list Node) : Prop :=
  load_data w "./data" = inr loaded
  ∧ load_dotenv w (os_environ w) !! "GROQ_API_KEY" = Some key
  ∧ pipeline_run w (ingestion_pipeline key) (shape_document <$> loaded) = inr nodes
  ∧ nodes ≠ [].

(** The answers that carry it on through lines 158-170: the embedding
    model loads, embeds the test sentence and the index is built. *)
Definition indexes (w : World) (nodes : list Node) (v : Embedding)
    (index : VectorStoreIndex) : Prop :=
  load_embed_model w EMBED_MODEL_NAME = None
  ∧ get_text_embedding w EMBED_MODEL_NAME "This is a test embedding." = inr v
  ∧ build_index w nodes EMBED_MODEL_NAME = inr index.

(** What a run printed, in order. *)
Definition printed (tr : list Event) : list Printed :=
  omap (λ ev, match ev with EvPrint p => Some p | _ => None end) tr.

(** The corpus downloads a run attempted, in order. *)
Definition attempted_downloads (tr : list Event) : list string :=
  omap (λ ev, match ev with EvNltkDownload pkg => Some pkg | _ => None end) tr.

(** The events of lines 5-21: the event-loop patch, the [ssl] block and
    the downloads with their handler. *)
Definition startup_event (ev : Event) : bool :=
  match ev with
  | EvNestAsyncio | EvSetDefaultHttpsContext | EvNltkDownload _
  | EvCaught _ _ | EvPrint (PWarning _) => true
  | _ => false
  end.

(** Lines 26-192: the script from the loader on, which is how [main]
    continues after the downloads. *)
Definition stages (w : World) : M unit :=
  loaded ← load_documents w;
  docs ← shape loaded;
  key ← read_api_key w;
  nodes ← ingest w key docs;
  index ← build w nodes;
  ask w index.

(** ** Concrete inputs *)

(** A page of a PDF as the loader returns it: the page label is a metadata
    key and nothing is excluded yet. *)
Definition page_document : Document :=
  mkDocument "Page one." {[ "page_label" := "1" ]} "{content}" "{key}: {value}" [] [].

Definition sample_node : Node := mkNode "Page one." {[ "page_label" := "1" ]} 0.

(** Every external call succeeds, but neither the process environment nor
    the .env file defines the API key. *)
Definition world_without_api_key : World :=
  mkWorld true (λ _, None) (λ _, inr [page_document]) ∅ (λ env, env)
          (λ _ _, inr [sample_node]) (λ _, None) (λ _ _, inr [1%Q])
          (λ nodes _, inr ((λ n, (n, [1%Q])) <$> nodes))
          (λ _ _, inr (mkResponse "An answer." [sample_node])).

(** An interpreter whose [ssl] module has no [_create_unverified_context]. *)
Definition world_without_ssl_attribute : World :=
  mkWorld false (λ _, None) (λ _, inr [page_document])
          {[ "GROQ_API_KEY" := "secret" ]} (λ env, env)
          (λ _ _, inr [sample_node]) (λ _, None) (λ _ _, inr [1%Q])
          (λ nodes _, inr ((λ n, (n, [1%Q])) <$> nodes))
          (λ _ _, inr (mkResponse "An answer." [sample_node])).

(** The second corpus download fails. *)
Definition world_with_failed_download : World :=
  mkWorld true
          (λ pkg, if bool_decide (pkg = "punkt")
                  then Some (mkExn (LibraryError "URLError") "no route to host")
                  else None)
          (λ _, inr [page_document])
          {[ "GROQ_API_KEY" := "secret" ]} (λ env, env)
          (λ _ _, inr [sample_node]) (λ _, None) (λ _ _, inr [1%Q])
          (λ nodes _, inr ((λ n, (n, [1%Q])) <$> nodes))
          (λ _ _, inr (mkResponse "An answer." [sample_node])).

(** A splitter that cuts a text in two halves, a hosted model that always
    answers, and a similarity that compares first coordinates. *)
Definition halves (s : SentenceSplitter) (t : string) : list string :=
  [String.substring 0 (String.length t / 2) t;
   String.substring (String.length t / 2) (String.length t) t].

Definition sample_title (e : TitleExtractor) (n : Node) : exn + string :=
  inr "A title".

Definition sample_questions (e : QuestionsAnsweredExtractor) (n : Node)
    : exn + string :=
  inr "What is on page one?".

(** The first half of [page_document] after the two extractors. *)
Definition sample_chunk : Node :=
  mkNode "Page"
         (<[ "questions" := "What is on page one?" ]>
            (<[ "title" := "A title" ]> (metadata page_document)))
         0.

Definition first_coordinate (qv v : Embedding) : Q :=
  match qv, v with
  | x :: _, y :: _ => (x * y)%Q
  | _, _ => 0%Q
  end.

Definition sample_index : VectorStoreIndex :=
  [ (mkNode "a" ∅ 0, [1%Q]); (mkNode "b" ∅ 0, [3%Q]); (mkNode "c" ∅ 1, [2%Q]) ].


Definition sample_embed_query (q : string) : exn + Embedding := inr [1%Q].

Definition sample_synthesize (llm : Groq) (q : string) (chunks : list Node)
    : exn + string :=
  inr "An answer.".


(** A world whose pipeline and query engine are the library's as the spec
    describes them, on the sample splitter, model and similarity. *)
Definition world_with_library : World :=
  mkWorld true (λ _, None) (λ _, inr [page_document])
          {[ "GROQ_API_KEY" := "secret" ]} (λ env, env)
          (ingestion_pipeline_run halves sample_title sample_questions
             "title" "questions")
          (λ _, None) (λ _ _, inr [1%Q])
          (λ nodes _, inr ((λ n, (n, [1%Q])) <$> nodes))
          (engine_query sample_embed_query first_coordinate sample_synthesize).

(** Every call succeeds, but the pipeline returns no chunk. *)
Definition world_with_no_chunks : World :=
  mkWorld true (λ _, None) (λ _, inr [page_document])
          {[ "GROQ_API_KEY" := "secret" ]} (λ env, env)
          (λ _ _, inr []) (λ _, None) (λ _ _, inr [1%Q])
          (λ nodes _, inr ((λ n, (n, [1%Q])) <$> nodes))
          (λ _ _, inr (mkResponse "An answer." [sample_node])).

(** A document that already excludes two keys from the embedding. *)
Definition file_document : Document :=
  mkDocument "Some text." {[ "file_name" := "a.txt" ]} "{content}" "{key}: {value}"
             ["file_name"; "file_size"] ["file_name"].

(** * Properties *)

(** ** The loop body *)

Lemma shape_document_excluded_embed doc :
  "page_label" ∈ excluded_embed_metadata_keys (shape_document doc).
Proof.
  unfold shape_document, py_in; cbn.
  case_bool_decide as Hin; cbn; [exact Hin|].
  apply elem_of_app; right. apply list_elem_of_singleton. reflexivity.
Qed.

Lemma shape_document_excluded_llm doc :
  excluded_llm_metadata_keys (shape_document doc) = excluded_llm_metadata_keys doc.
Proof. unfold shape_document. by destruct (negb _). Qed.

Lemma shape_document_metadata doc : metadata (shape_document doc) = metadata doc.
Proof. unfold shape_document. by destruct (negb _). Qed.

Lemma shape_document_idempotent doc :
  shape_document (shape_document doc) = shape_document doc.
Proof.
  unfold shape_document at 1.
  replace (py_in "page_label"
             (excluded_embed_metadata_keys
                (set_text_template TEXT_TEMPLATE (shape_document doc)))) with true.
  - cbn. unfold shape_document. by destruct (negb _).
  - symmetry. apply bool_decide_eq_true. cbn. apply shape_document_excluded_embed.
Qed.

(** ** The loop over the store *)

Lemma shape_step_lookup (h : store) r r' :
  shape_step h r !! r' =
  if decide (r = r') then shape_document <$> h !! r' else h !! r'.
Proof.
  unfold shape_step. destruct (decide (r = r')) as [->|Hne].
  - destruct (h !! r') as [doc|] eqn:E; cbn.
    + by rewrite lookup_insert_eq.
    + by rewrite E.
  - destruct (h !! r); [|done]. by rewrite lookup_insert_ne.
Qed.

Lemma shape_documents_cons r docs (h : store) :
  shape_documents (r :: docs) h = shape_documents docs (shape_step h r).
Proof. reflexivity. Qed.

(** After the loop, an object is shaped when it is listed and untouched
    otherwise, however often it is listed. *)
Lemma shape_documents_lookup docs (h : store) r :
  shape_documents docs h !! r =
  if decide (r ∈ docs) then shape_document <$> h !! r else h !! r.
Proof.
  revert h. induction docs as [|d docs IH]; intros h.
  - cbn. by rewrite decide_False by apply not_elem_of_nil.
  - rewrite shape_documents_cons, IH, shape_step_lookup.
    destruct (decide (r ∈ docs)) as [Hin|Hout], (decide (d = r)) as [->|Hne].
    + rewrite decide_True by (by left).
      destruct (h !! r); cbn; [|done]. by rewrite shape_document_idempotent.
    + by rewrite decide_True by (by right).
    + by rewrite decide_True by (by left).
    + rewrite decide_False; [done|].
      intros [?|?]%elem_of_cons; congruence.
Qed.

Lemma omap_seq_lookup {A B} (f : nat → option B) (g : A → B) (l : list A) start :
  (∀ i x, l !! i = Some x → f (start + i) = Some (g x)) →
  omap f (seq start (length l)) = g <$> l.
Proof.
  revert start. induction l as [|x l IH]; intros start Hf; [done|].
  cbn. rewrite <- (Nat.add_0_r start) at 1. rewrite (Hf 0 x eq_refl).
  f_equal. apply IH. intros i y Hi.
  replace (S start + i) with (start + S i) by lia. by apply Hf.
Qed.

(** On freshly loaded documents the loop is a map of its body. *)
Lemma shape_loaded loaded :
  contents (shape_documents (identities loaded) (allocate loaded)) (identities loaded)
  = shape_document <$> loaded.
Proof.
  unfold contents, identities, allocate.
  apply omap_seq_lookup. intros i x Hi. cbn.
  rewrite shape_documents_lookup, decide_True.
  - by rewrite lookup_map_seq_0, Hi.
  - apply elem_of_seq. apply lookup_lt_Some in Hi. lia.
Qed.

(** The loop never touches the keys excluded from the LLM rendering. *)
Lemma shape_documents_excluded_llm docs (h : store) r doc :
  h !! r = Some doc →
  ∃ doc', shape_documents docs h !! r = Some doc'
          ∧ excluded_keys LLM doc' = excluded_keys LLM doc.
Proof.
  intros Hdoc. rewrite shape_documents_lookup, Hdoc.
  destruct (decide (r ∈ docs)); cbn; eexists; split; try reflexivity.
  apply shape_document_excluded_llm.
Qed.

(** C1 (as the code behaves): the loop adds 'page_label' to the keys
    excluded from the EMBED rendering and leaves the keys excluded from the
    LLM rendering alone, so on a loaded page whose LLM exclusion list is
    empty the page label is still shown to the language model after the
    shaping step, against the comment on line 81. *)
Theorem page_label_not_hidden_from_llm :
  ∃ doc, shape_documents [0] (allocate [page_document]) !! 0 = Some doc
         ∧ ("page_label" ∈ dom (metadata doc))
         ∧ ("page_label" ∉ excluded_keys LLM doc)
         ∧ ("page_label" ∈ excluded_keys EMBED doc).
Proof.
  eexists. split; [reflexivity|]. cbn. split; [|split].
  - apply elem_of_dom. by eexists.
  - apply not_elem_of_nil.
  - by apply list_elem_of_singleton.
Qed.

(** C2: after the shaping loop, every document object of the list has
    'page_label' among its [excluded_embed_metadata_keys]. *)
Theorem shaped_documents_exclude_page_label docs (h : store) r :
  r ∈ docs → is_Some (h !! r) →
  ∃ doc, shape_documents docs h !! r = Some doc
         ∧ "page_label" ∈ excluded_embed_metadata_keys doc.
Proof.
  intros Hin [doc0 Hdoc0].
  exists (shape_document doc0). split.
  - by rewrite shape_documents_lookup, decide_True, Hdoc0.
  - apply shape_document_excluded_embed.
Qed.

Lemma shaped_documents_exclude_page_label_witness :
  ∃ doc, shape_documents [0; 1; 0] (allocate [page_document; page_document]) !! 1
           = Some doc
         ∧ "page_label" ∈ excluded_embed_metadata_keys doc.
Proof.
  apply (shaped_documents_exclude_page_label [0; 1; 0]
           (allocate [page_document; page_document]) 1).
  - apply elem_of_cons. right. apply elem_of_cons. by left.
  - by eexists.
Defined.

(** C10: running the shaping loop a second time over the same list changes
    no document; in particular 'page_label' is not appended again. *)
Theorem shape_documents_idempotent docs (h : store) :
  shape_documents docs (shape_documents docs h) = shape_documents docs h.
Proof.
  apply map_eq. intros r. rewrite !shape_documents_lookup.
  destruct (decide (r ∈ docs)); [|done].
  destruct (h !! r); cbn; [|done]. by rewrite shape_document_idempotent.
Qed.

(** ** Runs of the script *)

Example py_repr_key : py_repr "GROQ_API_KEY" = "'GROQ_API_KEY'".
Proof. reflexivity. Qed.

Example py_repr_escapes : py_repr ("a" ++ newline ++ "b") = "'a\nb'".
Proof. reflexivity. Qed.

Ltac unfold_script :=
  unfold run, main, fix_ssl, download_nltk_data, download, load_documents, shape,
    read_api_key, ingest, build, ask, try_except, environ_lookup, set_environ,
    get_environ, first_item, emit, lift, check, mbind, M_bind, bind, raise, ret in *.

(** Case analysis on the answers of the world, one call at a time, in the
    order the script makes them. *)
Ltac world_cases :=
  repeat match goal with
         | |- context [match ?x with _ => _ end] =>
             lazymatch x with
             | context [match _ with _ => _ end] => fail
             | _ => destruct x eqn:?
             end; cbn in *
         | |- context [if ?x then _ else _] =>
             lazymatch x with
             | context [match _ with _ => _ end] => fail
             | _ => destruct x eqn:?
             end; cbn in *
         end.

(** The two [try] statements never let an exception out, and leave the
    environment alone. *)
Lemma fix_ssl_returns w st :
  ∃ tr, fix_ssl w st = (mkState (environ st) (trace st ++ tr), inr tt)
        ∧ Forall (λ ev, later_stage ev = false) tr.
Proof.
  unfold_script. cbn. destruct (ssl_has_unverified_context w); cbn.
  - exists [EvSetDefaultHttpsContext]. split; [done|]. by repeat constructor.
  - eexists [EvCaught TrySslContext _]. split; [done|]. by repeat constructor.
Qed.

Lemma download_nltk_data_returns w st :
  ∃ tr, download_nltk_data w st = (mkState (environ st) (trace st ++ tr), inr tt)
        ∧ Forall (λ ev, later_stage ev = false) tr.
Proof.
  unfold_script. cbn. world_cases; rewrite <- ?app_assoc; cbn;
    (eexists; split; [reflexivity|by repeat constructor]).
Qed.

(** C6: when the API key is not in the environment after [load_dotenv],
    the run ends with an uncaught exception and none of the stages after
    the construction of [llm_transformations] (ingestion, embedding,
    indexing, query) has run; when the documents were loaded, the exception
    is the [KeyError] of the lookup on line 98. *)
Theorem missing_api_key_is_fatal w :
  load_dotenv w (os_environ w) !! "GROQ_API_KEY" = None →
  ∃ e, (run w).2 = inl e
       ∧ Forall (λ ev, later_stage ev = false) (trace (run w).1)
       ∧ (∀ docs, load_data w "./data" = inr docs →
                  e = mkExn KeyError "'GROQ_API_KEY'").
Proof.
  intros Habsent. unfold_script. cbn.
  destruct (ssl_has_unverified_context w); cbn;
    destruct (nltk_download w "stopwords"); cbn;
    try (destruct (nltk_download w "punkt"); cbn);
    try (destruct (nltk_download w "punkt_tab"); cbn);
    destruct (load_data w "./data") as [err|docs]; cbn;
    rewrite ?Habsent; cbn;
    (eexists; split; [reflexivity|]; split;
     [by repeat constructor | intros; first [congruence | reflexivity]]).
Qed.

Lemma missing_api_key_is_fatal_witness :
  ∃ e, (run world_without_api_key).2 = inl e
       ∧ Forall (λ ev, later_stage ev = false) (trace (run world_without_api_key).1)
       ∧ (∀ docs, load_data world_without_api_key "./data" = inr docs →
                  e = mkExn KeyError "'GROQ_API_KEY'").
Proof. apply (missing_api_key_is_fatal world_without_api_key). reflexivity. Defined.

(** ** The handlers *)




(** On an interpreter whose [ssl] lacks the attribute, the handler of
    lines 10-11 catches the [AttributeError] and does nothing: the first
    download follows at once. *)
Lemma ssl_handler_is_silent w :
  ssl_has_unverified_context w = false →
  ∃ rest,
    trace (run w).1
    = EvNestAsyncio
      :: EvCaught TrySslContext
           (mkExn AttributeError
              "module 'ssl' has no attribute '_create_unverified_context'")
      :: EvNltkDownload "stopwords" :: rest.
Proof.
  intros Hssl. unfold_script. cbn. rewrite Hssl. cbn.
  world_cases; eexists; reflexivity.
Qed.

Example ssl_less_run_completes : (run world_without_ssl_attribute).2 = inr tt.
Proof. reflexivity. Qed.



(** ** The pipeline as the spec describes it *)

Lemma and_then_inr {A} (r : exn + A) : and_then r inr = r.
Proof. by destruct r. Qed.

Lemma for_each_inv {A B} (f : A → exn + B) l l' :
  for_each f l = inr l' → Forall2 (λ x y, f x = inr y) l l'.
Proof.
  revert l'. induction l as [|x l IH]; intros l' Hl; cbn in Hl.
  - injection Hl as <-. constructor.
  - destruct (f x) as [e|y] eqn:Hx; [discriminate|]. cbn in Hl.
    destruct (for_each f l) as [e|ys]; [discriminate|]. cbn in Hl.
    injection Hl as <-. constructor; [done|]. by apply IH.
Qed.

Lemma add_metadata_inv (ask : Node → exn + string) k nodes nodes' :
  for_each (λ n, and_then (ask n) (λ v, inr (add_metadata k v n))) nodes = inr nodes' →
  Forall2 (λ n n', ∃ v, n' = add_metadata k v n) nodes nodes'.
Proof.
  intros H%for_each_inv. eapply Forall2_impl; [exact H|]. cbn.
  intros n n' Hn. destruct (ask n) as [e|v]; [discriminate|].
  cbn in Hn. injection Hn as <-. by exists v.
Qed.

Lemma add_metadata_provenance docs k v n :
  keeps_provenance docs n → keeps_provenance docs (add_metadata k v n).
Proof.
  intros (doc & Hdoc & Hsub). exists doc. split; [done|]. cbn.
  etrans; [exact Hsub|]. apply dom_insert_subseteq.
Qed.

Section LibraryProperties.
Variable split_text : SentenceSplitter → string → list string.
Variable ask_title : TitleExtractor → Node → exn + string.
Variable ask_questions : QuestionsAnsweredExtractor → Node → exn + string.
Variable title_key questions_key : string.

Local Abbreviation transform' :=
  (transform split_text ask_title ask_questions title_key questions_key).
Local Abbreviation run_transformations' :=
  (run_transformations split_text ask_title ask_questions title_key questions_key).
Local Abbreviation ingestion_pipeline_run' :=
  (ingestion_pipeline_run split_text ask_title ask_questions title_key questions_key).

Lemma document_nodes_provenance docs :
  Forall (keeps_provenance docs) (document_nodes docs).
Proof.
  apply Forall_forall. intros n Hn.
  apply elem_of_lookup_imap in Hn as (i & doc & -> & Hdoc).
  by exists doc.
Qed.

Lemma split_node_provenance docs s n :
  keeps_provenance docs n →
  Forall (keeps_provenance docs) (split_node split_text s n).
Proof.
  intros Hn. unfold split_node. apply Forall_fmap, Forall_forall.
  intros fragment _. exact Hn.
Qed.

(** Each transformation preserves the provenance of the chunks. *)
Lemma transform_provenance docs t nodes nodes' :
  Forall (keeps_provenance docs) nodes →
  transform' t nodes = inr nodes' →
  Forall (keeps_provenance docs) nodes'.
Proof.
  intros Hnodes Ht. destruct t as [s|e|e]; cbn in Ht.
  - injection Ht as <-. apply Forall_bind.
    eapply Forall_impl; [exact Hnodes|]. intros n. apply split_node_provenance.
  - apply add_metadata_inv in Ht.
    induction Ht as [|n n' ? ? [v ->]]; [constructor|].
    apply Forall_cons in Hnodes as [Hn Hnodes].
    constructor; [by apply add_metadata_provenance|by apply IHHt].
  - apply add_metadata_inv in Ht.
    induction Ht as [|n n' ? ? [v ->]]; [constructor|].
    apply Forall_cons in Hnodes as [Hn Hnodes].
    constructor; [by apply add_metadata_provenance|by apply IHHt].
Qed.

Lemma run_transformations_provenance docs ts nodes nodes' :
  Forall (keeps_provenance docs) nodes →
  run_transformations' ts nodes = inr nodes' →
  Forall (keeps_provenance docs) nodes'.
Proof.
  revert nodes. induction ts as [|t ts IH]; intros nodes Hnodes Hrun; cbn in Hrun.
  - by injection Hrun as <-.
  - destruct (transform' t nodes) as [e|mid] eqn:Ht; [discriminate|].
    cbn in Hrun. eapply IH; [|exact Hrun]. by eapply transform_provenance.
Qed.

(** C4: every chunk the ingestion pipeline returns has one source
    document in the input list, and every metadata key of that document is
    a metadata key of the chunk. *)
Theorem chunks_keep_document_metadata key docs nodes n :
  ingestion_pipeline_run' (ingestion_pipeline key) docs = inr nodes →
  n ∈ nodes →
  ∃ doc, docs !! source n = Some doc
         ∧ dom (metadata doc) ⊆ dom (node_metadata n).
Proof.
  intros Hrun Hn. unfold ingestion_pipeline_run in Hrun.
  eapply run_transformations_provenance in Hrun;
    [|apply document_nodes_provenance].
  rewrite Forall_forall in Hrun. exact (Hrun n Hn).
Qed.

(** What a run returns are the splitter's chunks, one node per chunk, each
    with the two extractors' entries. *)
Lemma ingestion_run_enriched key docs nodes :
  ingestion_pipeline_run' (ingestion_pipeline key) docs = inr nodes →
  Forall2 (enriched title_key questions_key)
          (document_nodes docs ≫= split_node split_text text_splitter) nodes.
Proof.
  unfold ingestion_pipeline_run.
  cbn [ingestion_pipeline transformations run_transformations transform and_then].
  destruct (for_each _ (_ ≫= _)) as [e|titled] eqn:Htitle; [discriminate|].
  cbn [and_then].
  destruct (for_each _ titled) as [e|asked] eqn:Hasked; [discriminate|].
  cbn. intros [= <-].
  apply add_metadata_inv in Htitle, Hasked.
  eapply Forall2_trans; [|exact Htitle|exact Hasked].
  intros c x y [v ->] [v' ->]. unfold enriched. cbn.
  rewrite !dom_insert_L. set_solver.
Qed.

Lemma length_bind_nonempty {A B} (f : A → list B) (l : list A) :
  (∀ x, f x ≠ []) → (length l ≤ length (l ≫= f))%nat.
Proof.
  intros Hf. induction l as [|x l IH]; cbn; [lia|].
  rewrite length_app. specialize (Hf x). destruct (f x); [done|]. cbn. lia.
Qed.

(** The run returns at least as many chunks as it was given documents
    whenever the splitting function returns a fragment for every text; the
    script fixes nothing about that function. *)
Lemma chunk_count_bound key docs nodes :
  (∀ s t, split_text s t ≠ []) →
  ingestion_pipeline_run' (ingestion_pipeline key) docs = inr nodes →
  (length docs ≤ length nodes)%nat.
Proof.
  intros Hsplit Hrun%ingestion_run_enriched.
  apply Forall2_length in Hrun. rewrite <- Hrun.
  etrans; [|apply length_bind_nonempty].
  - unfold document_nodes. by rewrite length_imap.
  - intros n. unfold split_node. intros Hnil%fmap_nil_inv. by eapply Hsplit.
Qed.

(** The pipeline object by itself: three transformations, and the
    library's run of it as their composition in list order. *)
Lemma pipeline_is_split_title_questions key docs :
  ∃ s t q,
    transformations (ingestion_pipeline key)
      = [Split s; ExtractTitle t; ExtractQuestions q]
    ∧ chunk_size s = 1024 ∧ chunk_overlap s = 128
    ∧ title_llm t = questions_llm q
    ∧ model (title_llm t) = "llama-3.1-8b-instant"
    ∧ ingestion_pipeline_run' (ingestion_pipeline key) docs
      = and_then (transform' (Split s) (document_nodes docs)) (λ chunks,
          and_then (transform' (ExtractTitle t) chunks) (λ titled,
            transform' (ExtractQuestions q) titled))
    ∧ (∀ nodes,
         ingestion_pipeline_run' (ingestion_pipeline key) docs = inr nodes →
         Forall2 (enriched title_key questions_key)
                 (document_nodes docs ≫= split_node split_text s) nodes).
Proof.
  exists text_splitter, (title_extractor key), (questions_answered_extractor key).
  do 5 (split; [reflexivity|]).
  split; [|apply ingestion_run_enriched].
  unfold ingestion_pipeline_run. cbn.
  destruct (for_each _ _); cbn; [done|]. by rewrite and_then_inr.
Qed.
End LibraryProperties.

Lemma chunks_keep_document_metadata_witness :
  ∃ doc, [page_document] !! source sample_chunk = Some doc
         ∧ dom (metadata doc) ⊆ dom (node_metadata sample_chunk).
Proof.
  eapply (chunks_keep_document_metadata halves sample_title sample_questions
            "title" "questions" "secret" [page_document]).
  - reflexivity.
  - apply elem_of_cons. by left.
Defined.

(** ** The query *)

#[global] Instance more_similar_trans similarity qv :
  Transitive (more_similar similarity qv).
Proof. intros a b c Hab Hbc. unfold more_similar in *. by eapply Qle_trans. Qed.

#[global] Instance more_similar_total similarity qv :
  Total (more_similar similarity qv).
Proof.
  intros a b. unfold more_similar.
  destruct (Qlt_le_dec (similarity qv a.2) (similarity qv b.2)) as [Hlt|Hle].
  - right. by apply Qlt_le_weak.
  - by left.
Qed.

(** Retrieval returns [min k n] of the [n] stored entries, and no entry
    left out is more similar to the query than a returned one. *)
Lemma retrieve_spec similarity k qv (index : VectorStoreIndex) :
  length (retrieve similarity k qv index) = k `min` length index
  ∧ ∃ rest, retrieve similarity k qv index ++ rest ≡ₚ index
            ∧ ∀ a b, a ∈ retrieve similarity k qv index → b ∈ rest →
                     more_similar similarity qv a b.
Proof.
  unfold retrieve.
  pose proof (merge_sort_Permutation (more_similar similarity qv) index) as Hperm.
  pose proof (StronglySorted_merge_sort (more_similar similarity qv) index) as Hsorted.
  split.
  - by rewrite length_take, Hperm.
  - exists (drop k (merge_sort (more_similar similarity qv) index)). split.
    + by rewrite take_drop.
    + intros a b Ha Hb. rewrite <- (take_drop k) in Hsorted.
      by eapply StronglySorted_app_1_elem_of.
Qed.

Example retrieve_sample :
  (retrieve first_coordinate 2 [1%Q] sample_index).*1
  = [mkNode "b" ∅ 0; mkNode "c" ∅ 1].
Proof. reflexivity. Qed.

Ltac solve_queries :=
  let H := fresh "Hin" in
  intros ? ? H; cbn in H;
  repeat (apply elem_of_cons in H as [H|H]; [inversion H; subst; clear H; eauto|]);
  by apply elem_of_nil in H.

(** A run issues at most one query: the text of line 187, to the engine
    of lines 180-184. *)
Lemma run_queries w :
  (length (queries (trace (run w).1)) ≤ 1)%nat
  ∧ ∀ engine q, (engine, q) ∈ queries (trace (run w).1) →
      q = QUERY_TEXT ∧ ∃ index key, engine = as_query_engine index key.
Proof.
  unfold_script. cbn. world_cases; (split; [cbn; lia | solve_queries]).
Qed.

(** The engine of lines 180-184 by itself, on any index. *)
Lemma query_retrieves_five_most_similar w embed_query similarity synthesize :
  ((length (queries (trace (run w).1)) ≤ 1)%nat
   ∧ ∀ engine q, (engine, q) ∈ queries (trace (run w).1) →
       q = QUERY_TEXT ∧ ∃ index key, engine = as_query_engine index key)
  ∧ ∀ index key response,
      engine_query embed_query similarity synthesize
        (as_query_engine index key) QUERY_TEXT = inr response →
      ∃ qv retrieved rest,
        embed_query QUERY_TEXT = inr qv
        ∧ source_nodes response = retrieved.*1
        ∧ length retrieved = 5 `min` length index
        ∧ retrieved ++ rest ≡ₚ index
        ∧ (∀ a b, a ∈ retrieved → b ∈ rest →
                  Qle (similarity qv b.2) (similarity qv a.2))
        ∧ synthesize (llm_querying key) QUERY_TEXT (source_nodes response)
          = inr (response_text response)
        ∧ model (llm_querying key) = "llama-3.3-70b-versatile".
Proof.
  split; [apply run_queries|].
  intros index key response. unfold engine_query. cbn.
  destruct (embed_query QUERY_TEXT) as [e|qv]; [discriminate|]. cbn.
  destruct (synthesize _ _ _) as [e|answer] eqn:Hanswer; [discriminate|]. cbn.
  intros [= <-]. cbn.
  destruct (retrieve_spec similarity 5 qv index) as (Hlen & rest & Hperm & Hbest).
  exists qv, (retrieve similarity 5 qv index), rest.
  repeat split; done.
Qed.

(** ** More on the shaping loop *)

Open Scope list_scope.

Lemma shape_document_text_template doc :
  text_template (shape_document doc) = TEXT_TEMPLATE.
Proof. unfold shape_document. by destruct (negb _). Qed.

Lemma shape_document_content doc :
  text (shape_document doc) = text doc
  ∧ metadata (shape_document doc) = metadata doc
  ∧ metadata_template (shape_document doc) = metadata_template doc
  ∧ excluded_llm_metadata_keys (shape_document doc) = excluded_llm_metadata_keys doc.
Proof. unfold shape_document. by destruct (negb _). Qed.

Lemma shape_document_exclusions doc :
  excluded_embed_metadata_keys (shape_document doc)
  = if bool_decide ("page_label" ∈ excluded_embed_metadata_keys doc)
    then excluded_embed_metadata_keys doc
    else (excluded_embed_metadata_keys doc ++ ["page_label"])%list.
Proof. unfold shape_document, py_in. cbn. by case_bool_decide. Qed.

(** X1: after the loop every listed document object renders its text
    through the template of line 79, whatever template it had. *)
Theorem shaped_documents_get_template docs (h : store) r :
  r ∈ docs → is_Some (h !! r) →
  ∃ doc, shape_documents docs h !! r = Some doc
         ∧ text_template doc = TEXT_TEMPLATE.
Proof.
  intros Hin [doc0 Hdoc0]. exists (shape_document doc0). split.
  - by rewrite shape_documents_lookup, decide_True, Hdoc0.
  - apply shape_document_text_template.
Qed.

Lemma shaped_documents_get_template_witness :
  ∃ doc, shape_documents [1] (allocate [page_document; file_document]) !! 1 = Some doc
         ∧ text_template doc = TEXT_TEMPLATE.
Proof.
  apply (shaped_documents_get_template [1] (allocate [page_document; file_document]) 1).
  - apply elem_of_cons. by left.
  - by eexists.
Defined.

(** X2: the loop creates and deletes no object, and an object that is not
    in the list is left exactly as it was. *)
Theorem shape_documents_frame docs (h : store) :
  dom (shape_documents docs h) = dom h
  ∧ ∀ r, r ∉ docs → shape_documents docs h !! r = h !! r.
Proof.
  split.
  - apply set_eq. intros r. rewrite !elem_of_dom, shape_documents_lookup.
    destruct (decide (r ∈ docs)); [|done]. by rewrite fmap_is_Some.
  - intros r Hout. by rewrite shape_documents_lookup, decide_False.
Qed.

(** X3: the loop changes neither the text, nor the metadata, nor the
    metadata template, nor the keys excluded from the LLM rendering of any
    object, listed or not. *)
Theorem shape_documents_keeps_content docs (h : store) r doc :
  h !! r = Some doc →
  ∃ doc', shape_documents docs h !! r = Some doc'
          ∧ text doc' = text doc
          ∧ metadata doc' = metadata doc
          ∧ metadata_template doc' = metadata_template doc
          ∧ excluded_llm_metadata_keys doc' = excluded_llm_metadata_keys doc.
Proof.
  intros Hdoc. rewrite shape_documents_lookup, Hdoc.
  destruct (decide (r ∈ docs)); cbn.
  - eexists. split; [reflexivity|]. apply shape_document_content.
  - by exists doc.
Qed.

Lemma shape_documents_keeps_content_witness :
  ∃ doc', shape_documents [0; 1] (allocate [page_document; file_document]) !! 1
            = Some doc'
          ∧ text doc' = text file_document
          ∧ metadata doc' = metadata file_document
          ∧ metadata_template doc' = metadata_template file_document
          ∧ excluded_llm_metadata_keys doc' = excluded_llm_metadata_keys file_document.
Proof.
  apply (shape_documents_keeps_content [0; 1]
           (allocate [page_document; file_document]) 1 file_document).
  reflexivity.
Defined.

(** X4: the keys a document already excluded from the embedding stay, in
    their order, at the front of the list; the loop adds one entry at most,
    and a list without duplicates stays without duplicates, also when the
    document is listed several times. *)
Theorem shape_documents_keeps_exclusions docs (h : store) r doc :
  h !! r = Some doc →
  ∃ doc', shape_documents docs h !! r = Some doc'
          ∧ excluded_embed_metadata_keys doc `prefix_of` excluded_embed_metadata_keys doc'
          ∧ (length (excluded_embed_metadata_keys doc')
             ≤ S (length (excluded_embed_metadata_keys doc)))%nat
          ∧ (NoDup (excluded_embed_metadata_keys doc) →
             NoDup (excluded_embed_metadata_keys doc')).
Proof.
  intros Hdoc. rewrite shape_documents_lookup, Hdoc.
  destruct (decide (r ∈ docs)); cbn.
  - eexists. split; [reflexivity|]. rewrite shape_document_exclusions.
    case_bool_decide as Hin.
    + split; [done|]. split; [lia|done].
    + split; [by apply prefix_app_r|]. split.
      * rewrite length_app. cbn. lia.
      * intros Hnodup. apply NoDup_app. split; [done|]. split.
        -- intros k Hk ->%list_elem_of_singleton. contradiction.
        -- apply NoDup_singleton.
  - exists doc. split; [done|]. split; [done|]. split; [lia|done].
Qed.

Lemma shape_documents_keeps_exclusions_witness :
  ∃ doc', shape_documents [1; 1] (allocate [page_document; file_document]) !! 1
            = Some doc'
          ∧ excluded_embed_metadata_keys file_document
              `prefix_of` excluded_embed_metadata_keys doc'
          ∧ (length (excluded_embed_metadata_keys doc')
             ≤ S (length (excluded_embed_metadata_keys file_document)))%nat
          ∧ (NoDup (excluded_embed_metadata_keys file_document) →
             NoDup (excluded_embed_metadata_keys doc')).
Proof.
  apply (shape_documents_keeps_exclusions [1; 1]
           (allocate [page_document; file_document]) 1 file_document).
  reflexivity.
Defined.

(** X5: what the loop does depends only on which objects the list names,
    not on their order nor on how often each is named. *)
Theorem shape_documents_order_irrelevant docs docs' (h : store) :
  (∀ r, r ∈ docs ↔ r ∈ docs') →
  shape_documents docs h = shape_documents docs' h.
Proof.
  intros Hsame. apply map_eq. intros r. rewrite !shape_documents_lookup.
  destruct (decide (r ∈ docs)) as [Hin|Hout].
  - by rewrite decide_True by (by apply Hsame).
  - by rewrite decide_False by (by rewrite <- Hsame).
Qed.

Lemma shape_documents_order_irrelevant_witness :
  shape_documents [0; 1; 0] (allocate [page_document; file_document])
  = shape_documents [1; 0] (allocate [page_document; file_document]).
Proof.
  apply (shape_documents_order_irrelevant [0; 1; 0] [1; 0]).
  intros r. rewrite !elem_of_cons, !elem_of_nil. tauto.
Defined.

(** ** More on runs *)

Ltac unfold_stages := unfold stages in *; unfold_script.

(** A run is the startup of lines 5-21, which always returns and leaves
    the environment alone, followed by the stages. *)
Lemma run_startup_then_stages w :
  ∃ startup, Forall (λ ev, startup_event ev = true) startup
             ∧ run w = stages w (mkState (os_environ w) startup).
Proof.
  unfold run, main, fix_ssl, download_nltk_data, download, try_except, emit,
    check, mbind, M_bind, bind, raise, ret. cbn.
  destruct (ssl_has_unverified_context w); cbn;
    destruct (nltk_download w "stopwords"); cbn;
    try (destruct (nltk_download w "punkt"); cbn);
    try (destruct (nltk_download w "punkt_tab"); cbn);
    (eexists; split; [|reflexivity]; by repeat constructor).
Qed.

(** The stages only append to the trace they start from. *)
Lemma stages_trace_frame w env tr :
  stages w (mkState env tr)
  = (mkState (environ (stages w (mkState env [])).1)
             (tr ++ trace (stages w (mkState env [])).1),
     (stages w (mkState env [])).2).
Proof.
  unfold_stages. cbn. world_cases; rewrite <- ?app_assoc; reflexivity.
Qed.

Lemma stages_startup_free w env :
  Forall (λ ev, startup_event ev = false) (trace (stages w (mkState env [])).1).
Proof. unfold_stages. cbn. world_cases; by repeat constructor. Qed.

(** X6: the outcome of a run, the environment it ends with and every
    event from the loader on are the same whether or not [ssl] has the
    unverified context and whatever the three corpus downloads do: lines
    5-21 only add startup events in front. *)
Theorem outcome_ignores_startup ssl ssl' dl dl' ld env dot pr lem gte bi q :
  ∃ startup startup' rest,
    Forall (λ ev, startup_event ev = true) startup
    ∧ Forall (λ ev, startup_event ev = true) startup'
    ∧ Forall (λ ev, startup_event ev = false) rest
    ∧ trace (run (mkWorld ssl dl ld env dot pr lem gte bi q)).1 = startup ++ rest
    ∧ trace (run (mkWorld ssl' dl' ld env dot pr lem gte bi q)).1 = startup' ++ rest
    ∧ environ (run (mkWorld ssl dl ld env dot pr lem gte bi q)).1
      = environ (run (mkWorld ssl' dl' ld env dot pr lem gte bi q)).1
    ∧ (run (mkWorld ssl dl ld env dot pr lem gte bi q)).2
      = (run (mkWorld ssl' dl' ld env dot pr lem gte bi q)).2.
Proof.
  destruct (run_startup_then_stages (mkWorld ssl dl ld env dot pr lem gte bi q))
    as (startup & Hstartup & ->).
  destruct (run_startup_then_stages (mkWorld ssl' dl' ld env dot pr lem gte bi q))
    as (startup' & Hstartup' & ->).
  rewrite (stages_trace_frame _ _ startup), (stages_trace_frame _ _ startup').
  exists startup, startup'. eexists. split; [done|]. split; [done|].
  split; [apply stages_startup_free|]. cbn. done.
Qed.

Lemma run_outcome w : (run w).2 = (stages w (mkState (os_environ w) [])).2.
Proof.
  destruct (run_startup_then_stages w) as (startup & _ & ->).
  by rewrite stages_trace_frame.
Qed.

(** X7: a run completes only if the loader returned documents, the API
    key was in the environment after [load_dotenv], the pipeline returned
    at least one chunk for the shaped documents, the embedding model
    loaded and embedded the test sentence, the index was built from the
    chunks and the query was answered. *)
Theorem run_completes_only_if w :
  (run w).2 = inr tt →
  ∃ loaded key nodes v index r,
    load_data w "./data" = inr loaded
    ∧ load_dotenv w (os_environ w) !! "GROQ_API_KEY" = Some key
    ∧ pipeline_run w (ingestion_pipeline key) (shape_document <$> loaded) = inr nodes
    ∧ nodes ≠ []
    ∧ load_embed_model w EMBED_MODEL_NAME = None
    ∧ get_text_embedding w EMBED_MODEL_NAME "This is a test embedding." = inr v
    ∧ build_index w nodes EMBED_MODEL_NAME = inr index
    ∧ query w (as_query_engine index key) QUERY_TEXT = inr r.
Proof.
  rewrite run_outcome. unfold_stages. cbn.
  destruct (load_data w "./data") as [err|loaded] eqn:Hload; cbn; [discriminate|].
  rewrite shape_loaded.
  world_cases; try discriminate;
    (intros _; simplify_eq; do 6 eexists; repeat split; try eassumption; done).
Qed.

Lemma run_completes_only_if_witness :
  ∃ loaded key nodes v index r,
    load_data world_with_failed_download "./data" = inr loaded
    ∧ load_dotenv world_with_failed_download (os_environ world_with_failed_download)
        !! "GROQ_API_KEY" = Some key
    ∧ pipeline_run world_with_failed_download (ingestion_pipeline key)
        (shape_document <$> loaded) = inr nodes
    ∧ nodes ≠ []
    ∧ load_embed_model world_with_failed_download EMBED_MODEL_NAME = None
    ∧ get_text_embedding world_with_failed_download EMBED_MODEL_NAME
        "This is a test embedding." = inr v
    ∧ build_index world_with_failed_download nodes EMBED_MODEL_NAME = inr index
    ∧ query world_with_failed_download (as_query_engine index key) QUERY_TEXT = inr r.
Proof. apply (run_completes_only_if world_with_failed_download). reflexivity. Defined.

Example sample_run_succeeds : (run world_with_failed_download).2 = inr tt.
Proof. reflexivity. Qed.

(** X8: when the pipeline returns no chunk, [nodes[0]] on line 152
    raises: the run ends with an [IndexError] right after printing
    "Transformed 0 nodes", and nothing is embedded, indexed or queried. *)
Theorem no_chunks_is_an_index_error w loaded key :
  load_data w "./data" = inr loaded →
  load_dotenv w (os_environ w) !! "GROQ_API_KEY" = Some key →
  pipeline_run w (ingestion_pipeline key) (shape_document <$> loaded) = inr [] →
  (run w).2 = inl (mkExn IndexError "list index out of range")
  ∧ last (printed (trace (run w).1)) = Some (PTransformed 0)
  ∧ Forall (λ ev, indexing_event ev = false) (trace (run w).1).
Proof.
  intros Hload Hkey Hnone. unfold_script. cbn.
  destruct (ssl_has_unverified_context w); cbn;
    destruct (nltk_download w "stopwords"); cbn;
    try (destruct (nltk_download w "punkt"); cbn);
    try (destruct (nltk_download w "punkt_tab"); cbn);
    rewrite Hload; cbn; rewrite shape_loaded, Hkey; cbn; rewrite Hnone; cbn;
    (split; [reflexivity|]; split; [reflexivity|]; by repeat constructor).
Qed.

Lemma no_chunks_is_an_index_error_witness :
  (run world_with_no_chunks).2 = inl (mkExn IndexError "list index out of range")
  ∧ last (printed (trace (run world_with_no_chunks).1)) = Some (PTransformed 0)
  ∧ Forall (λ ev, indexing_event ev = false) (trace (run world_with_no_chunks).1).
Proof.
  apply (no_chunks_is_an_index_error world_with_no_chunks [page_document] "secret");
    reflexivity.
Defined.

(** Rewriting with the answers of the world that the hypotheses give. *)
Ltac follow_world :=
  repeat (first [ rewrite shape_loaded
                | match goal with
                  | H : ?call = _ |- context [?call] => rewrite H
                  end ]; cbn).

(** X9: the exception of a failing call is the outcome of the run,
    unchanged: the loader's; once the documents are loaded and the key is
    found, the pipeline's; once the pipeline returned chunks, the embedding
    model's (on loading and on the test sentence) and the index's; and
    once the index is built, the query's. *)
Theorem call_failures_propagate w e :
  (load_data w "./data" = inl e → (run w).2 = inl e)
  ∧ (∀ loaded key,
       load_data w "./data" = inr loaded →
       load_dotenv w (os_environ w) !! "GROQ_API_KEY" = Some key →
       pipeline_run w (ingestion_pipeline key) (shape_document <$> loaded) = inl e →
       (run w).2 = inl e)
  ∧ (∀ loaded key nodes,
       ingests w loaded key nodes →
       load_embed_model w EMBED_MODEL_NAME = Some e →
       (run w).2 = inl e)
  ∧ (∀ loaded key nodes,
       ingests w loaded key nodes →
       load_embed_model w EMBED_MODEL_NAME = None →
       get_text_embedding w EMBED_MODEL_NAME "This is a test embedding." = inl e →
       (run w).2 = inl e)
  ∧ (∀ loaded key nodes v,
       ingests w loaded key nodes →
       load_embed_model w EMBED_MODEL_NAME = None →
       get_text_embedding w EMBED_MODEL_NAME "This is a test embedding." = inr v →
       build_index w nodes EMBED_MODEL_NAME = inl e →
       (run w).2 = inl e)
  ∧ (∀ loaded key nodes v index,
       ingests w loaded key nodes →
       indexes w nodes v index →
       query w (as_query_engine index key) QUERY_TEXT = inl e →
       (run w).2 = inl e).
Proof.
  rewrite run_outcome. unfold ingests, indexes. unfold_stages. cbn.
  repeat split; intros; destruct_and?;
    try match goal with
        | H : ?nodes ≠ [] |- _ => destruct nodes; [done|]
        end;
    follow_world; reflexivity.
Qed.

(** X10: whatever a run hands to [ingestion_pipeline.run] is the
    pipeline of lines 130-136 built on the key read from the environment
    after [load_dotenv], and the loaded documents after the shaping loop,
    one for one: each has the template of line 79 and excludes
    'page_label' from the embedding. *)
Theorem pipeline_receives_shaped_documents w p docs :
  (p, docs) ∈ pipeline_runs (trace (run w).1) →
  ∃ loaded key,
    load_data w "./data" = inr loaded
    ∧ load_dotenv w (os_environ w) !! "GROQ_API_KEY" = Some key
    ∧ p = ingestion_pipeline key
    ∧ docs = shape_document <$> loaded
    ∧ length docs = length loaded
    ∧ Forall (λ doc, "page_label" ∈ excluded_embed_metadata_keys doc
                     ∧ text_template doc = TEXT_TEMPLATE) docs.
Proof.
  destruct (run_startup_then_stages w) as (startup & Hstartup & ->).
  rewrite stages_trace_frame. cbn. unfold pipeline_runs. rewrite omap_app.
  replace (omap _ startup) with (@nil (IngestionPipeline * list Document)).
  2:{ symmetry. induction Hstartup as [|ev ? Hev]; [done|].
      cbn. by destruct ev. }
  cbn. unfold_stages. cbn.
  destruct (load_data w "./data") as [err|loaded]; cbn;
    [by intros ?%elem_of_nil|].
  rewrite shape_loaded.
  world_cases; intros Hin; cbn in Hin.
  all: try (by apply elem_of_nil in Hin).
  all: apply list_elem_of_singleton in Hin; simplify_eq.
  all: exists loaded; eexists; do 4 (split; [done|]).
  all: split; [by rewrite length_fmap|].
  all: apply Forall_fmap, Forall_forall; intros doc _; unfold compose; cbn beta.
  all: split; [apply shape_document_excluded_embed|apply shape_document_text_template].
Qed.

Lemma pipeline_receives_shaped_documents_witness :
  ∃ loaded key,
    load_data world_with_failed_download "./data" = inr loaded
    ∧ load_dotenv world_with_failed_download (os_environ world_with_failed_download)
        !! "GROQ_API_KEY" = Some key
    ∧ ingestion_pipeline "secret" = ingestion_pipeline key
    ∧ [shape_document page_document] = shape_document <$> loaded
    ∧ length [shape_document page_document] = length loaded
    ∧ Forall (λ doc, "page_label" ∈ excluded_embed_metadata_keys doc
                     ∧ text_template doc = TEXT_TEMPLATE)
             [shape_document page_document].
Proof.
  apply (pipeline_receives_shaped_documents world_with_failed_download).
  apply elem_of_cons. by left.
Defined.

(** X11: the script replaces the default HTTPS context by the unverified
    one exactly when [ssl] has [_create_unverified_context]. *)
Theorem https_context_replaced_iff w :
  replaces_https_context (trace (run w).1) = ssl_has_unverified_context w.
Proof. unfold_script. cbn. world_cases; reflexivity. Qed.

(** X12: the three corpus downloads share one [try]: they are attempted
    in the order stopwords, punkt, punkt_tab, and the first one that raises
    ends the block, so the later ones are not attempted. *)
Theorem downloads_stop_at_first_failure w :
  attempted_downloads (trace (run w).1)
  = match nltk_download w "stopwords", nltk_download w "punkt" with
    | Some _, _ => ["stopwords"]
    | None, Some _ => ["stopwords"; "punkt"]
    | None, None => ["stopwords"; "punkt"; "punkt_tab"]
    end.
Proof. unfold_script. cbn. world_cases; reflexivity. Qed.

(** X13: a run that completes has printed, in this order: at most one
    download warning, the number of loaded documents, the number of
    chunks, the first chunk in EMBED mode, the test embedding, and the
    query response twice (as text and as dictionary). *)
Theorem successful_run_prints w :
  (run w).2 = inr tt →
  ∃ warnings loaded key nodes n v index r,
    load_data w "./data" = inr loaded
    ∧ pipeline_run w (ingestion_pipeline key) (shape_document <$> loaded) = inr nodes
    ∧ head nodes = Some n
    ∧ get_text_embedding w EMBED_MODEL_NAME "This is a test embedding." = inr v
    ∧ build_index w nodes EMBED_MODEL_NAME = inr index
    ∧ query w (as_query_engine index key) QUERY_TEXT = inr r
    ∧ (warnings = [] ∨ ∃ e, warnings = [PWarning e])
    ∧ printed (trace (run w).1)
      = warnings ++ [PLoaded (length loaded); PTransformed (length nodes);
                     PNodeContent EMBED n; PTestEmbedding v;
                     PQueryResponse r; PResponseDict r].
Proof.
  unfold_script. cbn.
  destruct (ssl_has_unverified_context w); cbn;
    destruct (nltk_download w "stopwords"); cbn;
    try (destruct (nltk_download w "punkt"); cbn);
    try (destruct (nltk_download w "punkt_tab"); cbn);
    (destruct (load_data w "./data") as [err|loaded]; cbn; [discriminate|]);
    rewrite shape_loaded; world_cases; try discriminate; intros _; simplify_eq.
  all: first
         [ solve [ exists []; do 7 eexists;
                   do 6 (split; [eassumption || reflexivity|]);
                   split; [by left|reflexivity] ]
         | solve [ eexists [_]; do 7 eexists;
                   do 6 (split; [eassumption || reflexivity|]);
                   split; [right; by eexists|reflexivity] ] ].
Qed.

Lemma successful_run_prints_witness :
  ∃ warnings loaded key nodes n v index r,
    load_data world_with_failed_download "./data" = inr loaded
    ∧ pipeline_run world_with_failed_download (ingestion_pipeline key)
        (shape_document <$> loaded) = inr nodes
    ∧ head nodes = Some n
    ∧ get_text_embedding world_with_failed_download EMBED_MODEL_NAME
        "This is a test embedding." = inr v
    ∧ build_index world_with_failed_download nodes EMBED_MODEL_NAME = inr index
    ∧ query world_with_failed_download (as_query_engine index key) QUERY_TEXT = inr r
    ∧ (warnings = [] ∨ ∃ e, warnings = [PWarning e])
    ∧ printed (trace (run world_with_failed_download).1)
      = warnings ++ [PLoaded (length loaded); PTransformed (length nodes);
                     PNodeContent EMBED n; PTestEmbedding v;
                     PQueryResponse r; PResponseDict r].
Proof. apply (successful_run_prints world_with_failed_download). reflexivity. Defined.

(** ** The library in a run *)

(** A run is its startup events followed by the trace of the stages on
    an empty trace, with the stages' outcome. *)
Lemma run_trace w :
  ∃ startup,
    Forall (λ ev, startup_event ev = true) startup
    ∧ trace (run w).1 = startup ++ trace (stages w (mkState (os_environ w) [])).1
    ∧ (run w).2 = (stages w (mkState (os_environ w) [])).2.
Proof.
  destruct (run_startup_then_stages w) as (startup & Hstartup & ->).
  exists startup. by rewrite stages_trace_frame.
Qed.

Lemma pipeline_runs_startup startup :
  Forall (λ ev, startup_event ev = true) startup → pipeline_runs startup = [].
Proof. induction 1 as [|ev ? Hev]; [done|]. cbn. by destruct ev. Qed.


Ltac in_list := repeat first [ apply list_elem_of_here | apply list_elem_of_further ].

(** With the documents loaded and the key found, the run calls the
    pipeline once, on the shaped documents, goes on with what it returns
    and stops on what it raises. *)
Lemma run_ingests w loaded key :
  load_data w "./data" = inr loaded →
  load_dotenv w (os_environ w) !! "GROQ_API_KEY" = Some key →
  pipeline_runs (trace (run w).1) = [(ingestion_pipeline key, shape_document <$> loaded)]
  ∧ (∀ nodes,
       pipeline_run w (ingestion_pipeline key) (shape_document <$> loaded) = inr nodes →
       EvPrint (PTransformed (length nodes)) ∈ trace (run w).1)
  ∧ (∀ e,
       pipeline_run w (ingestion_pipeline key) (shape_document <$> loaded) = inl e →
       (run w).2 = inl e).
Proof.
  intros Hload Hkey.
  destruct (run_trace w) as (startup & Hstartup & -> & ->).
  unfold pipeline_runs. rewrite omap_app. fold (pipeline_runs startup).
  rewrite (pipeline_runs_startup startup Hstartup).
  unfold_stages. cbn. follow_world.
  destruct (pipeline_run w _ _) as [err|nodes] eqn:Hrun; cbn.
  - split; [done|]. split; [discriminate|]. by intros e [= <-].
  - split; [world_cases; reflexivity|]. split; [|discriminate].
    intros ? [= <-]. apply elem_of_app. right. world_cases; in_list.
Qed.


(** C5: in a run that has loaded the documents and found the key, the
    one pipeline the script runs holds exactly three transformations: the
    splitter with separator " ", chunk size 1024 and overlap 128, then the
    title extractor, then the questions extractor, both on the
    llama-3.1-8b-instant client; the library applies them to the shaped
    documents in that order, each to the output of the one before; the
    chunks it returns are the splitter's, each with a title and questions
    added, and they are what the run counts and goes on with; what the
    pipeline raises ends the run. *)
Theorem run_applies_three_transformations
    split_text ask_title ask_questions title_key questions_key w loaded key :
  pipeline_run w
  = ingestion_pipeline_run split_text ask_title ask_questions title_key questions_key →
  load_data w "./data" = inr loaded →
  load_dotenv w (os_environ w) !! "GROQ_API_KEY" = Some key →
  ∃ p s t q,
    pipeline_runs (trace (run w).1) = [(p, shape_document <$> loaded)]
    ∧ transformations p = [Split s; ExtractTitle t; ExtractQuestions q]
    ∧ s = mkSentenceSplitter " " 1024 128
    ∧ t = mkTitleExtractor (mkGroq "llama-3.1-8b-instant" key) 5
    ∧ q = mkQuestionsAnsweredExtractor (mkGroq "llama-3.1-8b-instant" key) 3
    ∧ pipeline_run w p (shape_document <$> loaded)
      = and_then
          (transform split_text ask_title ask_questions title_key questions_key
             (Split s) (document_nodes (shape_document <$> loaded)))
          (λ chunks,
             and_then
               (transform split_text ask_title ask_questions title_key questions_key
                  (ExtractTitle t) chunks)
               (transform split_text ask_title ask_questions title_key questions_key
                  (ExtractQuestions q)))
    ∧ (∀ nodes,
         pipeline_run w p (shape_document <$> loaded) = inr nodes →
         Forall2 (enriched title_key questions_key)
                 (document_nodes (shape_document <$> loaded) ≫= split_node split_text s)
                 nodes
         ∧ EvPrint (PTransformed (length nodes)) ∈ trace (run w).1)
    ∧ (∀ e,
         pipeline_run w p (shape_document <$> loaded) = inl e →
         (run w).2 = inl e).
Proof.
  intros Hlibrary Hload Hkey.
  destruct (run_ingests w loaded key Hload Hkey) as (Hruns & Hcount & Hraise).
  destruct (pipeline_is_split_title_questions split_text ask_title ask_questions
              title_key questions_key key (shape_document <$> loaded))
    as (s & t & q & Hts & _ & _ & _ & _ & Hcompose & _).
  injection Hts as <- <- <-.
  exists (ingestion_pipeline key), text_splitter, (title_extractor key),
    (questions_answered_extractor key).
  split; [done|]. do 4 (split; [reflexivity|]).
  split; [by rewrite Hlibrary|]. split; [|done].
  intros nodes Hnodes. split; [|by apply Hcount].
  rewrite Hlibrary in Hnodes. by eapply ingestion_run_enriched.
Qed.

Lemma run_applies_three_transformations_witness :
  ∃ p s t q,
    pipeline_runs (trace (run world_with_library).1)
      = [(p, shape_document <$> [page_document])]
    ∧ transformations p = [Split s; ExtractTitle t; ExtractQuestions q]
    ∧ s = mkSentenceSplitter " " 1024 128
    ∧ t = mkTitleExtractor (mkGroq "llama-3.1-8b-instant" "secret") 5
    ∧ q = mkQuestionsAnsweredExtractor (mkGroq "llama-3.1-8b-instant" "secret") 3
    ∧ pipeline_run world_with_library p (shape_document <$> [page_document])
      = and_then
          (transform halves sample_title sample_questions "title" "questions"
             (Split s) (document_nodes (shape_document <$> [page_document])))
          (λ chunks,
             and_then
               (transform halves sample_title sample_questions "title" "questions"
                  (ExtractTitle t) chunks)
               (transform halves sample_title sample_questions "title" "questions"
                  (ExtractQuestions q)))
    ∧ (∀ nodes,
         pipeline_run world_with_library p (shape_document <$> [page_document])
           = inr nodes →
         Forall2 (enriched "title" "questions")
                 (document_nodes (shape_document <$> [page_document])
                    ≫= split_node halves s)
                 nodes
         ∧ EvPrint (PTransformed (length nodes)) ∈ trace (run world_with_library).1)
    ∧ (∀ e,
         pipeline_run world_with_library p (shape_document <$> [page_document])
           = inl e →
         (run world_with_library).2 = inl e).
Proof.
  apply (run_applies_three_transformations halves sample_title sample_questions
           "title" "questions" world_with_library [page_document] "secret");
    reflexivity.
Defined.


